(** * pypicloud: object-store key and URL resolution, listing and download
      fallback

    A shallow embedding of [pypicloud/storage/object_store.py]
    ([ObjectStoreStorage]) together with the behaviour that
    [tests/test_simple.py] and [tests/test_api.py] pin down for the
    listing and download views.

    Conventions.
    - A Python [str] is a Rocq [string] holding its UTF-8 bytes, so
      [s.encode("utf-8")] is the list of its characters and [+] is
      [String.append].
    - A Python function that may raise returns [res A]; one that mutates
      its [package] argument returns the updated package next to its
      result.
    - 32-bit words are [Z] with the wrap-around written out. *)

From Stdlib Require Import ZArith List String Ascii Lia Bool.
From stdpp Require Import base option list strings gmap fin_maps pretty.

Local Open Scope Z_scope.

(* ===================================================================== *)
(** * hashlib.md5 and binascii.hexlify *)
(* ===================================================================== *)

(** [calculate_path] calls [md5()], [update], [digest] and [hexlify].
    The digest is the one of RFC 1321; it is written out here so that
    storage keys can be computed on concrete file names. *)
Module Md5.

Definition byte := Z.

Definition mask32 : Z := 0xffffffff.
Definition wrap32 (x : Z) : Z := Z.land x mask32.
Definition add32 (x y : Z) : Z := wrap32 (x + y).
Definition not32 (x : Z) : Z := Z.lxor x mask32.
Definition rotl32 (x : Z) (c : Z) : Z :=
  wrap32 (Z.lor (Z.shiftl x c) (Z.shiftr x (32 - c))).

(** Per-round shift amounts. *)
Definition shifts : list Z :=
  [ 7; 12; 17; 22;  7; 12; 17; 22;  7; 12; 17; 22;  7; 12; 17; 22;
    5;  9; 14; 20;  5;  9; 14; 20;  5;  9; 14; 20;  5;  9; 14; 20;
    4; 11; 16; 23;  4; 11; 16; 23;  4; 11; 16; 23;  4; 11; 16; 23;
    6; 10; 15; 21;  6; 10; 15; 21;  6; 10; 15; 21;  6; 10; 15; 21 ].

(** [floor (2^32 * abs (sin (i + 1)))] for [i = 0..63]. *)
Definition sines : list Z :=
  [ 0xd76aa478; 0xe8c7b756; 0x242070db; 0xc1bdceee;
    0xf57c0faf; 0x4787c62a; 0xa8304613; 0xfd469501;
    0x698098d8; 0x8b44f7af; 0xffff5bb1; 0x895cd7be;
    0x6b901122; 0xfd987193; 0xa679438e; 0x49b40821;
    0xf61e2562; 0xc040b340; 0x265e5a51; 0xe9b6c7aa;
    0xd62f105d; 0x02441453; 0xd8a1e681; 0xe7d3fbc8;
    0x21e1cde6; 0xc33707d6; 0xf4d50d87; 0x455a14ed;
    0xa9e3e905; 0xfcefa3f8; 0x676f02d9; 0x8d2a4c8a;
    0xfffa3942; 0x8771f681; 0x6d9d6122; 0xfde5380c;
    0xa4beea44; 0x4bdecfa9; 0xf6bb4b60; 0xbebfbc70;
    0x289b7ec6; 0xeaa127fa; 0xd4ef3085; 0x04881d05;
    0xd9d4d039; 0xe6db99e5; 0x1fa27cf8; 0xc4ac5665;
    0xf4292244; 0x432aff97; 0xab9423a7; 0xfc93a039;
    0x655b59c3; 0x8f0ccc92; 0xffeff47d; 0x85845dd1;
    0x6fa87e4f; 0xfe2ce6e0; 0xa3014314; 0x4e0811a1;
    0xf7537e82; 0xbd3af235; 0x2ad7d2bb; 0xeb86d391 ].

Record regs := Regs { rA : Z; rB : Z; rC : Z; rD : Z }.

Definition init_regs : regs :=
  Regs 0x67452301 0xefcdab89 0x98badcfe 0x10325476.

(** Little-endian encodings. *)
Fixpoint le_bytes (n : nat) (x : Z) : list byte :=
  match n with
  | O => []
  | S n' => Z.land x 255 :: le_bytes n' (Z.shiftr x 8)
  end.

Fixpoint le_word (bs : list byte) : Z :=
  match bs with
  | [] => 0
  | b :: bs' => Z.lor b (Z.shiftl (le_word bs') 8)
  end.

(** The message followed by [0x80], zeros up to 56 modulo 64, and the
    bit length on 64 bits. *)
Definition pad (msg : list byte) : list byte :=
  let len := Z.of_nat (length msg) in
  let zeros := Z.to_nat ((55 - len) mod 64) in
  msg ++ 128 :: repeat 0 zeros ++ le_bytes 8 ((8 * len) mod 2 ^ 64).

Fixpoint words (n : nat) (bs : list byte) : list Z :=
  match n with
  | O => []
  | S n' => le_word (take 4 bs) :: words n' (drop 4 bs)
  end.

Definition round_fg (i : Z) (b c d : Z) : Z * Z :=
  if i <? 16 then (Z.lor (Z.land b c) (Z.land (not32 b) d), i)
  else if i <? 32 then (Z.lor (Z.land d b) (Z.land (not32 d) c), (5 * i + 1) mod 16)
  else if i <? 48 then (Z.lxor (Z.lxor b c) d, (3 * i + 5) mod 16)
  else (Z.lxor c (Z.lor b (not32 d)), (7 * i) mod 16).

Definition step (m : list Z) (r : regs) (i : nat) : regs :=
  let '(f, g) := round_fg (Z.of_nat i) (rB r) (rC r) (rD r) in
  let f' := add32 (add32 (add32 f (rA r)) (nth i sines 0)) (nth (Z.to_nat g) m 0) in
  Regs (rD r) (add32 (rB r) (rotl32 f' (nth i shifts 0))) (rB r) (rC r).

Definition compress (r : regs) (block : list byte) : regs :=
  let m := words 16 block in
  let r' := fold_left (step m) (seq 0 64) r in
  Regs (add32 (rA r) (rA r')) (add32 (rB r) (rB r'))
       (add32 (rC r) (rC r')) (add32 (rD r) (rD r')).

Fixpoint blocks (n : nat) (r : regs) (bs : list byte) : regs :=
  match n with
  | O => r
  | S n' => blocks n' (compress r (take 64 bs)) (drop 64 bs)
  end.

Definition digest (msg : list byte) : list byte :=
  let p := pad msg in
  let r := blocks (length p / 64) init_regs p in
  le_bytes 4 (rA r) ++ le_bytes 4 (rB r) ++ le_bytes 4 (rC r) ++ le_bytes 4 (rD r).

End Md5.

(** [str.encode("utf-8")] under the convention above. *)
Definition encode_utf8 (s : string) : list Md5.byte :=
  map (fun c => Z.of_N (N_of_ascii c)) (list_ascii_of_string s).

Definition hex_digit (d : Z) : ascii :=
  if d <? 10 then ascii_of_N (Z.to_N (48 + d)) else ascii_of_N (Z.to_N (87 + d)).

(** [hexlify(bs).decode("utf-8")]: two lower-case digits per byte. *)
Fixpoint hexlify (bs : list Md5.byte) : string :=
  match bs with
  | [] => ""
  | b :: bs' => String (hex_digit (Z.shiftr b 4)) (String (hex_digit (Z.land b 15)) (hexlify bs'))
  end.

(** [s[:n]] on a string. *)
Definition str_take (n : nat) (s : string) : string := String.substring 0 n s.

(* ===================================================================== *)
(** * Python values, exceptions and results *)
(* ===================================================================== *)

Inductive exn :=
| TypeError
| ValueError
| KeyError
| NotImplementedError
| URLError (reason : string)
| RuntimeError (reason : string).

(** The outcome of a call: an exception or a value. *)
Definition res (A : Type) : Type := exn + A.

(** The values a package's [data] dict holds. *)
Inductive pyval :=
| PyNone
| PyBool (b : bool)
| PyInt (z : Z)
| PyStr (s : string).

(** Truth value of an optional flag ([None] and [False] are false) and of
    an optional text ([None] and the empty text are false). *)
Definition truthy_flag (o : option bool) : bool := default false o.

Definition truthy_str (o : option string) : bool :=
  match o with
  | Some s => negb (bool_decide (s = ""))
  | None => false
  end.

(* ===================================================================== *)
(** * pypicloud.models.Package *)
(* ===================================================================== *)

(** The attributes of [Package] that the storage backend reads, and the
    mutable [data] dict. *)
Record Package := mkPackage {
  name : string;
  version : string;
  filename : string;
  origin : string;
  data : gmap string pyval
}.

(** [package.data[k] = v] *)
Definition set_data (k : string) (v : pyval) (p : Package) : Package :=
  {| name := name p; version := version p; filename := filename p;
     origin := origin p; data := <[k := v]> (data p) |}.

(** A computation that may mutate the package it is given and may raise;
    the mutation survives the exception, as it does in Python. *)
Definition PkgM (A : Type) : Type := Package -> res A * Package.

Definition ret {A} (a : A) : PkgM A := fun p => (inr a, p).
Definition raise {A} (e : exn) : PkgM A := fun p => (inl e, p).
Definition bind {A B} (m : PkgM A) (k : A -> PkgM B) : PkgM B :=
  fun p => match m p with
           | (inr a, p') => k a p'
           | (inl e, p') => (inl e, p')
           end.

Notation "'let*' x := m 'in' k" := (bind m (fun x => k))
  (at level 10, x name, m at level 100, k at level 200).

(* ===================================================================== *)
(** * ObjectStoreStorage *)
(* ===================================================================== *)

(** The keyword arguments of [__init__], with their defaults. *)
Record Kwargs := mkKwargs {
  kw_expire_after : option Z;
  kw_bucket_prefix : option string;
  kw_upload_prefix : option string;
  kw_prepend_hash : option bool;
  kw_redirect_urls : option bool;
  kw_sse : option string;
  kw_object_acl : option string;
  kw_storage_class : option string;
  kw_region_name : option string;
  kw_public_url : bool
}.

Definition default_kwargs : Kwargs :=
  mkKwargs None None None None None None None None None false.

Record ObjectStoreStorage := mkStorage {
  expire_after : option Z;
  bucket_prefix : option string;
  prepend_hash : option bool;
  redirect_urls : option bool;
  sse : option string;
  object_acl : option string;
  storage_class : option string;
  region_name : option string;
  public_url : bool;
  upload_prefix : option string
}.

(** [__init__]: every argument is stored as given, except [upload_prefix],
    which is reverted to [None] when it equals [bucket_prefix]. *)
Definition init (kw : Kwargs) : ObjectStoreStorage :=
  {| expire_after := kw_expire_after kw;
     bucket_prefix := kw_bucket_prefix kw;
     prepend_hash := kw_prepend_hash kw;
     redirect_urls := kw_redirect_urls kw;
     sse := kw_sse kw;
     object_acl := kw_object_acl kw;
     storage_class := kw_storage_class kw;
     region_name := kw_region_name kw;
     public_url := kw_public_url kw;
     upload_prefix :=
       if bool_decide (kw_upload_prefix kw <> kw_bucket_prefix kw)
       then kw_upload_prefix kw else None |}.

(** [int] and [pyramid.settings.asbool] on the text of a setting are the
    interpreter's and the framework's; [configure] is parametric in them. *)
Class SettingsLib := {
  int_of_text : string -> res Z;
  asbool_text : string -> bool
}.

(** [asbool(settings.get(key, default))] for a boolean or absent default. *)
Definition asbool `{SettingsLib} (o : option string) (dflt : bool) : bool :=
  match o with
  | Some s => asbool_text s
  | None => dflt
  end.

(** [configure]: the keyword arguments read from the settings.  The base
    class contributes no storage argument and [_subclass_specific_config]
    is the empty dict in this class. *)
Definition configure `{SettingsLib} (settings : gmap string string) : res Kwargs :=
  match
    match settings !! "storage.expire_after" with
    | Some s => int_of_text s
    | None => inr (60 * 60 * 24)
    end
  with
  | inl e => inl e
  | inr expire =>
      inr {| kw_expire_after := Some expire;
             kw_bucket_prefix := Some (default "" (settings !! "storage.prefix"));
             kw_upload_prefix := Some (default "" (settings !! "storage.upload_prefix"));
             kw_prepend_hash := Some (asbool (settings !! "storage.prepend_hash") true);
             kw_redirect_urls := Some (asbool (settings !! "storage.redirect_urls") true);
             kw_sse := None;
             kw_object_acl := settings !! "storage.object_acl";
             kw_storage_class := settings !! "storage.storage_class";
             kw_region_name := settings !! "storage.region_name";
             kw_public_url := asbool (settings !! "storage.public_url") false |}
  end.

(** [calculate_path] *)
Definition calculate_path (self : ObjectStoreStorage) (package : Package) : string :=
  let path := name package +:+ "/" +:+ filename package in
  if truthy_flag (prepend_hash self) then
    let prefix := str_take 4 (hexlify (Md5.digest (encode_utf8 (filename package)))) in
    prefix +:+ "/" +:+ path
  else path.

(** The operand of [+ filename] in [get_path]:
    [upload_prefix if upload_prefix and origin == "upload" else bucket_prefix]. *)
Definition area_prefix (self : ObjectStoreStorage) (package : Package) : option string :=
  if truthy_str (upload_prefix self) && bool_decide (origin package = "upload")
  then upload_prefix self
  else bucket_prefix self.

(** [package.data[k]] *)
Definition data_get (k : string) : PkgM pyval :=
  fun package =>
    match data package !! k with
    | Some v => (inr v, package)
    | None => (inl KeyError, package)
    end.

(** The assignment of line 118: [None + str] raises [TypeError] before
    anything is stored. *)
Definition store_path (self : ObjectStoreStorage) : PkgM unit :=
  fun package =>
    let filename := calculate_path self package in
    match area_prefix self package with
    | Some pre => (inr tt, set_data "path" (PyStr (pre +:+ filename)) package)
    | None => (inl TypeError, package)
    end.

(** [get_path] *)
Definition get_path (self : ObjectStoreStorage) : PkgM pyval :=
  fun package =>
    (let* _ := (if bool_decide (data package !! "path" = None)
                then store_path self else ret tt) in
     data_get "path") package.

(** The base class [IStorage] (its [get_url]) and the concrete backends
    ([_generate_url]) are outside this class. *)
Class IStorage := {
  IStorage_get_url : PkgM string
}.

Class Backend := {
  _generate_url : ObjectStoreStorage -> PkgM string
}.

(** [_generate_url] as this class leaves it. *)
Definition abstract_backend : Backend :=
  {| _generate_url := fun _ => raise NotImplementedError |}.

(** [get_url] *)
Definition get_url `{IStorage} `{Backend} (self : ObjectStoreStorage) : PkgM string :=
  if truthy_flag (redirect_urls self)
  then IStorage_get_url
  else _generate_url self.

Inductive Response :=
| HTTPFound (location : string).

(** [download_response] *)
Definition download_response `{Backend} (self : ObjectStoreStorage) : PkgM Response :=
  let* url := _generate_url self in ret (HTTPFound url).

(** Modelled from the spec: [get_url] of the base class [IStorage]
    ([pypicloud/storage/base.py], not among the sources): the stable
    proxy-relative URL [api/package/{name}/{filename}] of the package. *)
Definition proxy_url (package : Package) : string :=
  "api/package/" +:+ name package +:+ "/" +:+ filename package.

Definition proxy_storage : IStorage :=
  {| IStorage_get_url := fun package => (inr (proxy_url package), package) |}.

(** Modelled from the spec: [_generate_url] of a concrete backend (the S3
    and GCS subclasses, not among the sources): the external signed-URL
    generator applied to the storage key, the configured expiry and the
    public-URL flag. *)
Definition signed_backend (signer : pyval -> option Z -> bool -> string) : Backend :=
  {| _generate_url := fun self =>
       let* key := get_path self in
       ret (signer key (expire_after self) (public_url self)) |}.

(* ===================================================================== *)
(** * The proxied stream: [open] *)
(* ===================================================================== *)

(** What [urllib.request.urlopen] hands back: [read()] gives the body or
    raises, [close()] may raise. *)
Record Handle := mkHandle {
  h_read : res (list Md5.byte);
  h_close : option exn
}.

(** [urlopen] itself, by URL. *)
Definition Network : Type := string -> res Handle.

(** What happens to handles, in order.  A handle is named by the length
    of the log when it was acquired. *)
Inductive event :=
| EvOpen (h : nat) (url : string)
| EvRead (h : nat)
| EvYield (h : nat) (bytes : list Md5.byte)
| EvClose (h : nat).

(** The generator of [open] up to its [yield]: the URL is generated, the
    handle acquired and, inside the [try], read.  When [read] raises the
    [finally] clause runs here. *)
Definition open_enter `{Backend} (net : Network) (self : ObjectStoreStorage)
    (package : Package) (log : list event)
  : res (nat * Handle * list Md5.byte) * Package * list event :=
  match _generate_url self package with
  | (inl e, package') => (inl e, package', log)
  | (inr url, package') =>
      match net url with
      | inl e => (inl e, package', log)
      | inr handle =>
          let h := length log in
          let log1 := log ++ [EvOpen h url; EvRead h] in
          match h_read handle with
          | inr bytes => (inr (h, handle, bytes), package', log1 ++ [EvYield h bytes])
          | inl e => (inl (default e (h_close handle)), package', log1 ++ [EvClose h])
          end
      end
  end.

(** The generator after its [yield]: resumed normally ([thrown = None]) or
    with the exception of the [with] block thrown in; either way the
    [finally] clause closes the handle. *)
Definition open_exit (h : nat) (handle : Handle) (thrown : option exn)
    (log : list event) : res unit * list event :=
  let log' := log ++ [EvClose h] in
  match h_close handle, thrown with
  | Some e, _ => (inl e, log')
  | None, Some e => (inl e, log')
  | None, None => (inr tt, log')
  end.

(** [with self.open(package) as f: body(f)], where [f] is the [BytesIO]
    over the bytes read. *)
Definition with_open `{Backend} {A} (net : Network) (self : ObjectStoreStorage)
    (package : Package) (body : list Md5.byte -> res A) (log : list event)
  : res A * Package * list event :=
  match open_enter net self package log with
  | (inl e, package', log') => (inl e, package', log')
  | (inr (h, handle, bytes), package', log') =>
      let r := body bytes in
      let thrown := match r with inl e => Some e | inr _ => None end in
      match open_exit h handle thrown log' with
      | (inl e, log'') => (inl e, package', log'')
      | (inr _, log'') => (r, package', log'')
      end
  end.

(** The handles acquired and not yet closed. *)
Fixpoint open_handles (log : list event) (acc : list nat) : list nat :=
  match log with
  | [] => acc
  | EvOpen h _ :: log' => open_handles log' (h :: acc)
  | EvClose h :: log' => open_handles log' (filter (fun h' => h' <> h) acc)
  | _ :: log' => open_handles log' acc
  end.

(* ===================================================================== *)
(** * The listing and download views *)
(* ===================================================================== *)

(** [pypicloud/views/simple.py] and [pypicloud/views/api.py] are not among
    the sources; [tests/test_simple.py] and [tests/test_api.py] are.  The
    views are modelled from the specification, the test scenarios are
    translated from the tests. *)
Module Views.

(** Fallback mode of the resolution policy. *)
Inductive FallbackMode := FallbackNone | FallbackRedirect | FallbackCache.

(** One entry of a listing. *)
Record Entry := mkEntry {
  e_url : string;
  e_requires_python : option string;
  e_hash_sha256 : option string;
  e_hash_md5 : option string;
  e_non_hashed_url : option string
}.

#[export] Instance Entry_eq_dec : EqDecision Entry.
Proof. solve_decision. Defined.

(** What a listing request carries: the policy, the decisions of the
    permission gate, the locally stored packages of the project and the
    releases the fallback gateway reports, both keyed by file name. *)
Record ListingRequest := mkListingRequest {
  lr_fallback : FallbackMode;
  lr_always_show_upstream : bool;
  lr_fallback_url : string;
  lr_is_authenticated : bool;
  lr_can_read : bool;
  lr_can_update_cache : bool;
  lr_local : gmap string Entry;
  lr_upstream : gmap string Entry
}.

Inductive ListingResponse :=
| LoginRequired
| Forbidden
| NotFound
| Redirect (location : string)
| Pkgs (pkgs : gmap string Entry).

#[export] Instance ListingResponse_eq_dec : EqDecision ListingResponse.
Proof. solve_decision. Defined.

Definition status_code (r : ListingResponse) : Z :=
  match r with
  | LoginRequired => 401
  | Forbidden => 403
  | NotFound => 404
  | Redirect _ => 302
  | Pkgs _ => 200
  end.

Definition has_local (req : ListingRequest) : bool :=
  negb (bool_decide (lr_local req = ∅)).

(** Modelled from the spec: the redirect to the upstream project page
    (part of the listing view). *)
Definition redirect_upstream (project : string) (req : ListingRequest) : ListingResponse :=
  Redirect (lr_fallback_url req +:+ project +:+ "/").

(** Modelled from the spec: a denial in the listing view, the given
    response for a known caller and an authentication challenge for an
    anonymous one. *)
Definition deny (req : ListingRequest) (r : ListingResponse) : ListingResponse :=
  if lr_is_authenticated req then r else LoginRequired.

(** Modelled from the spec: the merge rule of the listing view, local
    entries first, then the upstream entries whose file name is not yet
    present. *)
Definition merged (req : ListingRequest) : gmap string Entry :=
  lr_local req ∪ lr_upstream req.

(** Modelled from the spec: the upstream listing alone (part of the
    listing view), not-found when it is empty. *)
Definition serve_upstream (req : ListingRequest) : ListingResponse :=
  if bool_decide (lr_upstream req = ∅) then NotFound else Pkgs (lr_upstream req).

(** Modelled from the spec: the listing view [package_versions] of
    [pypicloud/views/simple.py], which is not among the sources.  The
    branches are those of the decision table of the index resolver; every
    combination that [tests/test_simple.py] exercises has the outcome
    the test asserts (see [simple_tests]), also where the table words it
    differently. *)
Definition package_versions (project : string) (req : ListingRequest) : ListingResponse :=
  match lr_fallback req, lr_always_show_upstream req with
  | FallbackRedirect, false =>
      if has_local req then
        if lr_can_read req then Pkgs (lr_local req)
        else deny req (redirect_upstream project req)
      else redirect_upstream project req
  | FallbackRedirect, true =>
      if has_local req then
        if lr_can_read req then Pkgs (merged req)
        else deny req (redirect_upstream project req)
      else redirect_upstream project req
  | FallbackCache, false =>
      if negb (lr_can_read req) then deny req NotFound
      else if has_local req then Pkgs (lr_local req)
      else if negb (lr_can_update_cache req) then deny req NotFound
      else serve_upstream req
  | FallbackCache, true =>
      if negb (lr_can_read req) then deny req (redirect_upstream project req)
      else if has_local req then
        if lr_can_update_cache req then Pkgs (merged req)
        else deny req (Pkgs (merged req))
      else if negb (lr_can_update_cache req) then deny req (redirect_upstream project req)
      else serve_upstream req
  | FallbackNone, _ =>
      if negb (lr_can_read req) then deny req NotFound
      else if has_local req then Pkgs (lr_local req)
      else NotFound
  end.

(** ** The scenarios of [tests/test_simple.py] *)

(** ["c" in perms] *)
Fixpoint str_contains (c : ascii) (s : string) : bool :=
  match s with
  | EmptyString => false
  | String c' s' => bool_decide (c = c') || str_contains c s'
  end.

(** [PackageReadTestBase]: [make_package] is outside the sources; the
    project and file names below stand for its defaults. *)
Definition test_project : string := "mypkg".
Definition test_filename : string := "mypkg-1.1.tar.gz".
Definition test_filename2 : string := "mypkg-2.1.tar.gz".
Definition test_fallback_url : string := "https://pypi.org/pypi/".

(** The entry [should_serve] expects for the stored package. *)
Definition test_local_entry : Entry :=
  mkEntry "api/package/mypkg/mypkg-1.1.tar.gz" None None None
          (Some "api/package/mypkg/mypkg-1.1.tar.gz").

(** [setUp]: what the patched [get_fallback_packages] returns. *)
Definition fallback_packages : gmap string Entry :=
  {[ test_filename2 := mkEntry (test_fallback_url +:+ test_filename2) None None None None ]}.

(** [get_request] *)
Definition get_request (fallback : FallbackMode) (always_show_upstream : bool)
    (package : bool) (perms : string) (user : option string) : ListingRequest :=
  {| lr_fallback := fallback;
     lr_always_show_upstream := always_show_upstream;
     lr_fallback_url := test_fallback_url;
     lr_is_authenticated := bool_decide (user <> None);
     lr_can_read := str_contains "r" perms;
     lr_can_update_cache := str_contains "c" perms;
     lr_local := if package then {[ test_filename := test_local_entry ]} else ∅;
     lr_upstream := fallback_packages |}.

(** The assertions of the test base class, on the listing view (the
    JSON variant and the digest-carrying package are left out). *)
Inductive Expect :=
| should_ask_auth
| should_404
| should_403
| should_redirect
| should_serve
| should_cache
| should_serve_and_redirect.

Definition check (x : Expect) (req : ListingRequest) : bool :=
  let ret := package_versions test_project req in
  match x with
  | should_ask_auth => bool_decide (status_code ret = 401)
  | should_404 => bool_decide (status_code ret = 404)
  | should_403 => bool_decide (status_code ret = 403)
  | should_redirect =>
      bool_decide (ret = Redirect (test_fallback_url +:+ test_project +:+ "/"))
  | should_serve => bool_decide (ret = Pkgs {[ test_filename := test_local_entry ]})
  | should_cache => bool_decide (ret = Pkgs fallback_packages)
  | should_serve_and_redirect =>
      bool_decide (ret = Pkgs (<[ test_filename := test_local_entry ]> fallback_packages))
  end.

(** One test method: has a stored package, [perms], [user], assertion. *)
Definition Case : Type := bool * string * option string * Expect.

Definition run (fallback : FallbackMode) (always_show_upstream : bool) (c : Case) : bool :=
  let '(package, perms, user, x) := c in
  check x (get_request fallback always_show_upstream package perms user).

Definition foo : option string := Some "foo".

Definition TestRedirect : list Case :=
  [ (false, "", None, should_redirect);
    (false, "", foo, should_redirect);
    (false, "r", None, should_redirect);
    (false, "r", foo, should_redirect);
    (false, "rc", None, should_redirect);
    (false, "rc", foo, should_redirect);
    (true, "", None, should_ask_auth);
    (true, "", foo, should_redirect);
    (true, "r", None, should_serve);
    (true, "r", foo, should_serve);
    (true, "rc", None, should_serve);
    (true, "rc", foo, should_serve) ].

Definition TestRedirectAlwaysShow : list Case :=
  [ (false, "", None, should_redirect);
    (false, "", foo, should_redirect);
    (false, "r", None, should_redirect);
    (false, "r", foo, should_redirect);
    (false, "rc", None, should_redirect);
    (false, "rc", foo, should_redirect);
    (true, "", None, should_ask_auth);
    (true, "", foo, should_redirect);
    (true, "r", foo, should_serve_and_redirect);
    (true, "r", foo, should_serve_and_redirect);
    (true, "r", foo, should_serve_and_redirect);
    (true, "r", foo, should_serve_and_redirect) ].

Definition TestCache : list Case :=
  [ (false, "", None, should_ask_auth);
    (false, "", foo, should_404);
    (false, "r", None, should_ask_auth);
    (false, "r", foo, should_404);
    (false, "rc", None, should_cache);
    (false, "rc", foo, should_cache);
    (true, "", None, should_ask_auth);
    (true, "", foo, should_404);
    (true, "r", None, should_serve);
    (true, "r", foo, should_serve);
    (true, "rc", None, should_serve);
    (true, "rc", foo, should_serve) ].

Definition TestCacheAlwaysShow : list Case :=
  [ (false, "", None, should_ask_auth);
    (false, "", foo, should_redirect);
    (false, "r", None, should_ask_auth);
    (false, "r", foo, should_redirect);
    (false, "rc", None, should_cache);
    (false, "rc", foo, should_cache);
    (true, "", None, should_ask_auth);
    (true, "", foo, should_redirect);
    (true, "r", None, should_ask_auth);
    (true, "r", foo, should_serve_and_redirect);
    (true, "rc", None, should_serve_and_redirect);
    (true, "rc", foo, should_serve_and_redirect) ].

Definition TestNoFallback : list Case :=
  [ (false, "", None, should_ask_auth);
    (false, "", foo, should_404);
    (false, "r", None, should_404);
    (false, "r", foo, should_404);
    (false, "rc", None, should_404);
    (false, "rc", foo, should_404);
    (true, "", None, should_ask_auth);
    (true, "", foo, should_404);
    (true, "r", None, should_serve);
    (true, "r", foo, should_serve);
    (true, "rc", None, should_serve) ].

(** Every test class, run with its [fallback] and [always_show_upstream]. *)
Definition simple_tests : bool :=
  forallb (run FallbackRedirect false) TestRedirect
  && forallb (run FallbackRedirect true) TestRedirectAlwaysShow
  && forallb (run FallbackCache false) TestCache
  && forallb (run FallbackCache true) TestCacheAlwaysShow
  && forallb (run FallbackNone false) TestNoFallback.

(** ** The download endpoint *)

(** Provenance of a local package. *)
Inductive Origin := OriginUpload | OriginCache.

(** A local package record. *)
Record LocalPackage := mkLocalPackage {
  lp_name : string;
  lp_version : string;
  lp_filename : string;
  lp_summary : option string;
  lp_requires_python : option string;
  lp_origin : Origin
}.

(** A release reported by the upstream index. *)
Record Dist := mkDist {
  d_filename : string;
  d_url : string;
  d_name : string;
  d_version : string;
  d_summary : option string;
  d_requires_python : option string
}.

(** Operations issued to the object store. *)
Inductive store_op :=
| StorePut (key : string) (bytes : list Md5.byte)
| StoreGet (key : string).

(** The local state: the package records by file name, the stored
    objects by key, and the operations issued so far. *)
Record Db := mkDb {
  db_packages : gmap string LocalPackage;
  db_objects : gmap string (list Md5.byte);
  db_ops : list store_op
}.

(** What a download request carries: the policy, the permission gate's
    decision, and the collaborators (upstream releases of a project,
    the network fetch of a URL, the key resolver). *)
Record DownloadRequest := mkDownloadRequest {
  dr_fallback : FallbackMode;
  dr_can_update_cache : bool;
  dr_stream_files : bool;
  dr_package_max_age : Z;
  dr_releases : string -> list Dist;
  dr_fetch : string -> res (list Md5.byte);
  dr_resolve : LocalPackage -> string
}.

Inductive DownloadResponse :=
| DlNotFound
| DlForbidden
| DlUpstreamUnavailable (e : exn)
| DlSignedRedirect (key : string)
| DlStream (headers : gmap string string) (key : string)
| DlBody (headers : gmap string string) (body : list Md5.byte).

(** Modelled from the spec: the header of the download view,
    [Cache-Control: public, max-age=<policy>]. *)
Definition cache_control (max_age : Z) : gmap string string :=
  {[ "Cache-Control" := "public, max-age=" +:+ pretty max_age ]}.

(** Modelled from the spec: the lookup of the download view, the release
    whose file name is the requested one. *)
Definition find_release (filename : string) (releases : list Dist) : option Dist :=
  List.find (fun d => bool_decide (d_filename d = filename)) releases.

(** Modelled from the spec: the record the cache orchestrator creates for
    a fetched release. *)
Definition cached_package (filename : string) (d : Dist) : LocalPackage :=
  {| lp_name := d_name d; lp_version := d_version d; lp_filename := filename;
     lp_summary := d_summary d; lp_requires_python := d_requires_python d;
     lp_origin := OriginCache |}.

(** Modelled from the spec: the cache orchestrator [fetch_dist] called by
    the download view of [pypicloud/views/api.py], which is not among the
    sources.  The bytes are fetched first; only then is the record
    created and the object written under the resolved key. *)
Definition fetch_and_cache (req : DownloadRequest) (filename : string) (d : Dist)
    (db : Db) : res (LocalPackage * list Md5.byte) * Db :=
  match dr_fetch req (d_url d) with
  | inl e => (inl e, db)
  | inr bytes =>
      let pkg := cached_package filename d in
      let key := dr_resolve req pkg in
      (inr (pkg, bytes),
       {| db_packages := <[ filename := pkg ]> (db_packages db);
          db_objects := <[ key := bytes ]> (db_objects db);
          db_ops := db_ops db ++ [StorePut key bytes] |})
  end.

(** Modelled from the spec: the download view [download_package] of
    [pypicloud/views/api.py], which is not among the sources: a stored
    file is streamed or redirected to; a missing one is not found unless
    the fallback mode is [cache], forbidden without the cache-update
    permission, and otherwise fetched, cached and answered from the
    fetched bytes. *)
Definition download_package (project filename : string) (req : DownloadRequest)
    (db : Db) : DownloadResponse * Db :=
  match db_packages db !! filename with
  | Some package =>
      let key := dr_resolve req package in
      if dr_stream_files req then
        (DlStream (cache_control (dr_package_max_age req)) key,
         {| db_packages := db_packages db; db_objects := db_objects db;
            db_ops := db_ops db ++ [StoreGet key] |})
      else (DlSignedRedirect key, db)
  | None =>
      match dr_fallback req with
      | FallbackCache =>
          if negb (dr_can_update_cache req) then (DlForbidden, db)
          else
            match find_release filename (dr_releases req project) with
            | None => (DlNotFound, db)
            | Some d =>
                match fetch_and_cache req filename d db with
                | (inl e, db') => (DlUpstreamUnavailable e, db')
                | (inr (_, bytes), db') =>
                    (DlBody (cache_control (dr_package_max_age req)) bytes, db')
                end
            end
      | _ => (DlNotFound, db)
      end
  end.

(** ** The scenarios of [tests/test_api.py] *)

(** [make_dist(url=url)] for [context.filename = "package.tar.gz"];
    [make_dist] is outside the sources, the metadata stands for its
    defaults. *)
Definition test_dist : Dist :=
  mkDist "package.tar.gz" "https://pypi.org/simple/package.tar.gz"
         "mypkg" "1.1" None None.

Definition empty_db : Db := mkDb ∅ ∅ [].

(** The request of the download tests: [db.fetch] finds nothing,
    [fetch_dist] hands back [bytes]. *)
Definition api_request (fallback : FallbackMode) (can_update_cache : bool)
    (max_age : Z) (releases : list Dist) (bytes : list Md5.byte) : DownloadRequest :=
  {| dr_fallback := fallback;
     dr_can_update_cache := can_update_cache;
     dr_stream_files := false;
     dr_package_max_age := max_age;
     dr_releases := fun _ => releases;
     dr_fetch := fun _ => inr bytes;
     dr_resolve := fun p => lp_name p +:+ "/" +:+ lp_filename p |}.

End Views.

(* ===================================================================== *)
(** * The key format in words, and concrete instances *)
(* ===================================================================== *)

(** The first four hex digits of the MD5 digest of the file name. *)
Definition hash_prefix (filename : string) : string :=
  str_take 4 (hexlify (Md5.digest (encode_utf8 filename))).

(** The storage area of a package: the upload prefix when the origin is
    [upload] and a non-empty upload prefix differing from the bucket prefix
    was configured, the bucket prefix otherwise. *)
Definition key_area (kw : Kwargs) (package : Package) : option string :=
  if bool_decide (origin package = "upload")
     && truthy_str (kw_upload_prefix kw)
     && bool_decide (kw_upload_prefix kw <> kw_bucket_prefix kw)
  then kw_upload_prefix kw
  else kw_bucket_prefix kw.

(** [<4-hex-prefix>/] when hashing is on, then [<project>/<filename>]. *)
Definition hashed_path (hashing : bool) (package : Package) : string :=
  if hashing
  then hash_prefix (filename package) +:+ "/" +:+ name package +:+ "/" +:+ filename package
  else name package +:+ "/" +:+ filename package.

(** A bracketed part of the format as the specification words it: when
    present it is followed by a separator. *)
Definition bracketed (part : option string) : string :=
  match part with
  | Some s => if bool_decide (s = "") then "" else s +:+ "/"
  | None => ""
  end.

(** The key as the specification words it:
    [[<upload-or-bucket-prefix>/][<4-hex-prefix>/]<project>/<filename>]. *)
Definition spec_key (kw : Kwargs) (package : Package) : string :=
  bracketed (key_area kw package) +:+ hashed_path (truthy_flag (kw_prepend_hash kw)) package.

(** A settings library for concrete runs.  It is narrower than [int] and
    [asbool]: it reads plain decimal digits only (no sign, blanks or
    underscores) and takes the lower-case words for true as they stand (no
    stripping, no case folding).  It is applied only to texts on which it
    agrees with them. *)
Fixpoint digits_value (s : string) (acc : Z) : res Z :=
  match s with
  | EmptyString => inr acc
  | String c s' =>
      let d := Z.of_N (N_of_ascii c) - 48 in
      if (0 <=? d) && (d <=? 9) then digits_value s' (10 * acc + d) else inl ValueError
  end.

Definition plain_settings_lib : SettingsLib :=
  {| int_of_text := fun s => if bool_decide (s = "") then inl ValueError else digits_value s 0;
     asbool_text := fun s => bool_decide (s ∈ ["t"; "true"; "y"; "yes"; "on"; "1"]) |}.

(** A source distribution that was uploaded, and the same file pulled from
    the fallback index. *)
Definition sdist_upload : Package := mkPackage "foo" "1.2" "foo-1.2.tar.gz" "upload" ∅.
Definition sdist_cached : Package := mkPackage "foo" "1.2" "foo-1.2.tar.gz" "fallback" ∅.

(** The same file name and origin under another project name. *)
Definition sdist_other_project : Package :=
  mkPackage "bar" "1.2" "foo-1.2.tar.gz" "fallback" ∅.

(** Separate areas for uploads and cached files, hashing on. *)
Definition kw_split : Kwargs :=
  mkKwargs (Some 86400) (Some "cache/") (Some "uploads/") (Some true) (Some true)
           None None None None false.

(** One area whose prefix carries no trailing separator, hashing off. *)
Definition kw_bare : Kwargs :=
  mkKwargs (Some 86400) (Some "packages") (Some "") (Some false) (Some false)
           None None None None false.

(** The same prefix given for both areas. *)
Definition kw_same : Kwargs :=
  mkKwargs (Some 86400) (Some "pkgs/") (Some "pkgs/") (Some true) (Some true)
           None None None None false.

(** A signer for concrete runs. *)
Definition test_signer (key : pyval) (expire : option Z) (public : bool) : string :=
  "https://bucket.example/"
  +:+ match key with PyStr k => k | _ => "" end
  +:+ (if public then "" else "?Expires=" +:+ pretty (default 0 expire)).

(** [kw_split] with another expiry, URL mode and region. *)
Definition kw_split_short : Kwargs :=
  mkKwargs (Some 60) (Some "cache/") (Some "uploads/") (Some true) (Some false)
           None None None (Some "eu-west-1") true.

(** [sdist_cached] under another version and with metadata in its bag. *)
Definition sdist_cached_annotated : Package :=
  mkPackage "foo" "3.0" "foo-1.2.tar.gz" "fallback" {[ "summary" := PyStr "demo" ]}.

(** Another project's wheel that carries the key memoized for
    [sdist_upload] under [kw_split]. *)
Definition sdist_renamed_memoized : Package :=
  mkPackage "bar" "9.9" "bar-9.9-py3-none-any.whl" "fallback"
            {[ "path" := PyStr "uploads/da1f/foo/foo-1.2.tar.gz" ]}.

(** Settings that name a bucket prefix and an upload prefix, and what
    [configure] yields on them. *)
Definition settings_two_areas : gmap string string :=
  {[ "storage.prefix" := "cache/"; "storage.upload_prefix" := "uploads/" ]}.

Definition kw_two_areas : Kwargs :=
  mkKwargs (Some 86400) (Some "cache/") (Some "uploads/") (Some true) (Some true)
           None None None None false.

(** A package whose key was memoized earlier. *)
Definition sdist_memoized : Package :=
  mkPackage "foo" "1.2" "foo-1.2.tar.gz" "upload" {[ "path" := PyStr "legacy/foo-1.2.tar.gz" ]}.

(** What [configure] yields on settings that set nothing. *)
Definition kw_default : Kwargs :=
  mkKwargs (Some 86400) (Some "") (Some "") (Some true) (Some true)
           None None None None false.

(** Networks for concrete runs: one whose handle reads [abc], one whose
    handle fails to read. *)
Definition net_abc : Network := fun _ => inr (mkHandle (inr [97; 98; 99]) None).
Definition net_broken : Network :=
  fun _ => inr (mkHandle (inl (URLError "reset")) None).

(** A consumer that raises on what it is given. *)
Definition failing_consumer (bytes : list Md5.byte) : res unit :=
  inl (RuntimeError "consumer").

(* ===================================================================== *)
(** * Predicates used to state further properties *)
(* ===================================================================== *)

(** ["/" in s] *)
Fixpoint contains_slash (s : string) : bool :=
  match s with
  | EmptyString => false
  | String c s' => bool_decide (c = "/"%char) || contains_slash s'
  end.

(** One of [0-9a-f]. *)
Definition is_lower_hex (c : ascii) : bool :=
  let n := Z.of_N (N_of_ascii c) in
  ((48 <=? n) && (n <=? 57)) || ((97 <=? n) && (n <=? 102)).

(** The handle an event is about. *)
Definition event_handle (e : event) : nat :=
  match e with
  | EvOpen h _ | EvRead h | EvYield h _ | EvClose h => h
  end.

(** Every handle of the log was named when the log was shorter, which is
    how [open] names them. *)
Definition handles_bounded (log : list event) : Prop :=
  forall e, e ∈ log -> (event_handle e < length log)%nat.

(** A log on which one handle was acquired earlier and never closed. *)
Definition log_with_leak : list event := [EvOpen 0 "https://elsewhere.example/x"; EvRead 0].

(* ===================================================================== *)
(** * Properties of key resolution *)
(* ===================================================================== *)

Section KeyResolution.

Implicit Types (self : ObjectStoreStorage) (package : Package).

(** A memoized key is returned as it is. *)
Lemma get_path_memo self package v :
  data package !! "path" = Some v ->
  get_path self package = (inr v, package).
Proof.
  intros Hv. unfold get_path, bind, data_get, ret.
  rewrite bool_decide_eq_false_2 by (rewrite Hv; discriminate).
  now rewrite Hv.
Qed.

(** Without a memoized key and with a text prefix, the key is computed
    and stored. *)
Lemma get_path_fresh self package pre :
  data package !! "path" = None ->
  area_prefix self package = Some pre ->
  get_path self package =
    (inr (PyStr (pre +:+ calculate_path self package)),
     set_data "path" (PyStr (pre +:+ calculate_path self package)) package).
Proof.
  intros Hn Hp. unfold get_path, bind, store_path, data_get.
  rewrite bool_decide_eq_true_2 by exact Hn.
  rewrite Hp. cbn [data set_data]. now rewrite lookup_insert_eq.
Qed.

(** Without a memoized key and with [None] as prefix, [TypeError] is
    raised and nothing is stored. *)
Lemma get_path_fresh_none self package :
  data package !! "path" = None ->
  area_prefix self package = None ->
  get_path self package = (inl TypeError, package).
Proof.
  intros Hn Hp. unfold get_path, bind, store_path.
  rewrite bool_decide_eq_true_2 by exact Hn.
  now rewrite Hp.
Qed.

(** Whatever a call returns is what the bag holds afterwards. *)
Lemma get_path_stored self package k package' :
  get_path self package = (inr k, package') ->
  data package' !! "path" = Some k.
Proof.
  intros Hg. destruct (data package !! "path") as [v|] eqn:Hv.
  - rewrite (get_path_memo _ _ _ Hv) in Hg. now inversion Hg; subst.
  - destruct (area_prefix self package) as [pre|] eqn:Hp.
    + rewrite (get_path_fresh _ _ _ Hv Hp) in Hg. inversion Hg; subst.
      cbn [data set_data]. apply lookup_insert_eq.
    + rewrite (get_path_fresh_none _ _ Hv Hp) in Hg. discriminate.
Qed.

(** A call that raised left the package as it was. *)
Lemma get_path_raise self package e package' :
  get_path self package = (inl e, package') ->
  package' = package /\ data package !! "path" = None.
Proof.
  intros Hg. destruct (data package !! "path") as [v|] eqn:Hv.
  - rewrite (get_path_memo _ _ _ Hv) in Hg. discriminate.
  - destruct (area_prefix self package) as [pre|] eqn:Hp.
    + rewrite (get_path_fresh _ _ _ Hv Hp) in Hg. discriminate.
    + rewrite (get_path_fresh_none _ _ Hv Hp) in Hg. now inversion Hg.
Qed.

(** The prefix choice reads the origin and the two prefixes only. *)
Lemma area_prefix_init kw package :
  area_prefix (init kw) package =
    if bool_decide (origin package = "upload")
       && truthy_str (kw_upload_prefix kw)
       && bool_decide (kw_upload_prefix kw <> kw_bucket_prefix kw)
    then kw_upload_prefix kw
    else kw_bucket_prefix kw.
Proof.
  unfold area_prefix, init; cbn.
  destruct (bool_decide (kw_upload_prefix kw <> kw_bucket_prefix kw)) eqn:Hd;
    destruct (bool_decide (origin package = "upload"));
    destruct (truthy_str (kw_upload_prefix kw)); reflexivity.
Qed.

(** [__init__] with identical prefixes keeps no upload prefix. *)
Lemma init_same_prefix kw :
  kw_upload_prefix kw = kw_bucket_prefix kw -> upload_prefix (init kw) = None.
Proof.
  intros Heq. unfold init; cbn. rewrite bool_decide_eq_false_2; [reflexivity|].
  intros Hne. now apply Hne.
Qed.

End KeyResolution.

Section KeyClaims.

Implicit Types (self : ObjectStoreStorage) (package : Package).

(** C2 (amended).  For a package without a memoized key, resolved by a
    storage built from keyword arguments [kw], the key is the area prefix
    taken as configured, with no separator added after it, followed by
    [<4-hex-prefix>/] when hash-prefixing is on (the first four hex digits
    of the MD5 digest of the file name) and by [<project>/<filename>].
    The area prefix is the upload prefix iff the origin is [upload] and a
    non-empty upload prefix distinct from the bucket prefix is configured,
    and the bucket prefix otherwise.  The key is also what is stored. *)
Theorem get_path_key_format kw package pre :
  data package !! "path" = None ->
  key_area kw package = Some pre ->
  get_path (init kw) package =
    (inr (PyStr (pre +:+ hashed_path (truthy_flag (kw_prepend_hash kw)) package)),
     set_data "path"
       (PyStr (pre +:+ hashed_path (truthy_flag (kw_prepend_hash kw)) package)) package).
Proof.
  intros Hn Ha.
  assert (Hp : area_prefix (init kw) package = Some pre)
    by (rewrite area_prefix_init; exact Ha).
  rewrite (get_path_fresh _ _ _ Hn Hp).
  unfold calculate_path, hashed_path, hash_prefix. cbn [prepend_hash init].
  destruct (truthy_flag (kw_prepend_hash kw)); reflexivity.
Qed.

Lemma get_path_key_format_witness :
  data sdist_upload !! "path" = None /\
  key_area kw_split sdist_upload = Some "uploads/" /\
  fst (get_path (init kw_split) sdist_upload)
    = inr (PyStr "uploads/da1f/foo/foo-1.2.tar.gz").
Proof.
  split; [reflexivity|]. split; [reflexivity|].
  rewrite (get_path_key_format kw_split sdist_upload "uploads/");
    [vm_compute; reflexivity | reflexivity | reflexivity].
Defined.

(** C2 as worded fails: a bucket prefix without a trailing separator is
    not followed by one in the key. *)
Lemma key_format_separator_counterexample :
  data sdist_cached !! "path" = None /\
  spec_key kw_bare sdist_cached = "packages/foo/foo-1.2.tar.gz" /\
  fst (get_path (init kw_bare) sdist_cached) = inr (PyStr "packagesfoo/foo-1.2.tar.gz") /\
  fst (get_path (init kw_bare) sdist_cached) <> inr (PyStr (spec_key kw_bare sdist_cached)).
Proof.
  split; [reflexivity|]. split; [vm_compute; reflexivity|].
  split; [vm_compute; reflexivity|]. vm_compute. discriminate.
Qed.

(** C6.  Resolving the key again gives the same outcome and changes
    nothing more, however often it is repeated; a first call on a package
    without a memoized key computes the key and stores it in the
    package's [data]; and once a call has returned a key, that key is the
    stored one and every later call returns it without computing anything:
    through whatever storages the later calls go, in whatever order, and
    also for a package whose other attributes differ but whose [data]
    holds the same entry, the answer is the stored key and the package is
    left as it is. *)
Theorem get_path_idempotent self package :
  let r1 := get_path self package in
  get_path self (snd r1) = r1
  /\ (forall n, get_path self (Nat.iter n (fun p => snd (get_path self p)) (snd r1)) = r1)
  /\ (forall pre, data package !! "path" = None -> area_prefix self package = Some pre ->
        fst r1 = inr (PyStr (pre +:+ calculate_path self package))
        /\ data (snd r1) !! "path" = Some (PyStr (pre +:+ calculate_path self package)))
  /\ (forall k, fst r1 = inr k ->
        data (snd r1) !! "path" = Some k
        /\ (forall (selves : list ObjectStoreStorage) self',
              get_path self' (fold_left (fun p s => snd (get_path s p)) selves (snd r1))
              = (inr k, snd r1))
        /\ (forall self' package',
              data package' !! "path" = data (snd r1) !! "path" ->
              get_path self' package' = (inr k, package'))).
Proof.
  intros r1.
  assert (Hfix : get_path self (snd r1) = r1).
  { subst r1. destruct (get_path self package) as [[e|k] p1] eqn:Hg; cbn [snd].
    - apply get_path_raise in Hg as Hp. destruct Hp as [-> _]. exact Hg.
    - apply get_path_memo. eapply get_path_stored. exact Hg. }
  split; [exact Hfix|]. split; [|split].
  - induction n as [|n IH].
    + exact Hfix.
    + rewrite Nat.iter_succ, IH. exact Hfix.
  - intros pre Hn Hp. subst r1. rewrite (get_path_fresh _ _ _ Hn Hp).
    cbn [fst snd data set_data]. split; [reflexivity | apply lookup_insert_eq].
  - intros k Hk.
    assert (Hst : data (snd r1) !! "path" = Some k).
    { subst r1. destruct (get_path self package) as [r p1] eqn:Hg.
      cbn [fst snd] in *. subst r. eapply get_path_stored. exact Hg. }
    split; [exact Hst|]. split.
    + intros selves self'.
      assert (Hfold : fold_left (fun p s => snd (get_path s p)) selves (snd r1) = snd r1).
      { induction selves as [|s0 selves IH]; [reflexivity|].
        cbn [fold_left]. rewrite (get_path_memo s0 _ _ Hst). cbn [snd]. exact IH. }
      rewrite Hfold. now apply get_path_memo.
    + intros self' package' Hd. apply get_path_memo. now rewrite Hd.
Qed.

Lemma get_path_idempotent_witness :
  fst (get_path (init kw_split) sdist_upload) = inr (PyStr "uploads/da1f/foo/foo-1.2.tar.gz")
  /\ get_path (init kw_split) (snd (get_path (init kw_split) sdist_upload))
     = get_path (init kw_split) sdist_upload
  /\ get_path (init kw_bare)
       (fold_left (fun p s => snd (get_path s p)) [init kw_same; init kw_default]
          (snd (get_path (init kw_split) sdist_upload)))
     = (inr (PyStr "uploads/da1f/foo/foo-1.2.tar.gz"),
        snd (get_path (init kw_split) sdist_upload))
  /\ get_path (init kw_bare) sdist_renamed_memoized
     = (inr (PyStr "uploads/da1f/foo/foo-1.2.tar.gz"), sdist_renamed_memoized).
Proof.
  assert (Hk : fst (get_path (init kw_split) sdist_upload)
               = inr (PyStr "uploads/da1f/foo/foo-1.2.tar.gz"))
    by (vm_compute; reflexivity).
  destruct (get_path_idempotent (init kw_split) sdist_upload) as (Hfix & _ & _ & Hlater).
  destruct (Hlater _ Hk) as (_ & Hseq & Hbag).
  split; [exact Hk|]. split; [exact Hfix|]. split.
  - exact (Hseq [init kw_same; init kw_default] (init kw_bare)).
  - apply Hbag. vm_compute. reflexivity.
Defined.

(** C7 as worded fails: two packages with the same file name and origin
    but different project names get different keys. *)
Lemma key_depends_on_project_counterexample :
  ~ (forall self p1 p2,
       filename p1 = filename p2 -> origin p1 = origin p2 ->
       data p1 !! "path" = None -> data p2 !! "path" = None ->
       fst (get_path self p1) = fst (get_path self p2)).
Proof.
  intros H.
  specialize (H (init kw_split) sdist_cached sdist_other_project
                eq_refl eq_refl eq_refl eq_refl).
  vm_compute in H. discriminate.
Qed.

(** C7 (amended).  The computed key is a function of the project name,
    the file name, the origin, the hashing flag and the two prefixes, and
    of nothing else: packages that agree on the first three, resolved
    without a memoized key by storages that agree on the last three, get
    the same key, whatever their versions, their other metadata and the
    other settings of the storages. *)
Theorem get_path_determined s1 s2 p1 p2 :
  name p1 = name p2 -> filename p1 = filename p2 -> origin p1 = origin p2 ->
  truthy_flag (prepend_hash s1) = truthy_flag (prepend_hash s2) ->
  bucket_prefix s1 = bucket_prefix s2 -> upload_prefix s1 = upload_prefix s2 ->
  data p1 !! "path" = None -> data p2 !! "path" = None ->
  fst (get_path s1 p1) = fst (get_path s2 p2).
Proof.
  intros Hname Hfile Horig Hhash Hb Hu Hn1 Hn2.
  assert (Hc : calculate_path s1 p1 = calculate_path s2 p2).
  { unfold calculate_path. now rewrite Hname, Hfile, Hhash. }
  assert (Ha : area_prefix s1 p1 = area_prefix s2 p2).
  { unfold area_prefix. now rewrite Horig, Hb, Hu. }
  destruct (area_prefix s2 p2) as [pre|] eqn:Hp.
  - rewrite (get_path_fresh _ _ _ Hn1 Ha), (get_path_fresh _ _ _ Hn2 Hp).
    cbn [fst]. now rewrite Hc.
  - now rewrite (get_path_fresh_none _ _ Hn1 Ha), (get_path_fresh_none _ _ Hn2 Hp).
Qed.

Lemma get_path_determined_witness :
  fst (get_path (init kw_split) sdist_cached)
  = fst (get_path (init kw_split_short) sdist_cached_annotated).
Proof.
  apply (get_path_determined (init kw_split) (init kw_split_short)
           sdist_cached sdist_cached_annotated); reflexivity.
Defined.

(** C8.  A storage constructed with an upload prefix identical to its
    bucket prefix has no upload prefix: key resolution takes the bucket
    prefix for every package, uploaded or not. *)
Theorem same_prefix_no_upload_area kw :
  kw_upload_prefix kw = kw_bucket_prefix kw ->
  upload_prefix (init kw) = None
  /\ (forall package, area_prefix (init kw) package = kw_bucket_prefix kw)
  /\ (forall package pre,
        data package !! "path" = None -> kw_bucket_prefix kw = Some pre ->
        fst (get_path (init kw) package)
          = inr (PyStr (pre +:+ calculate_path (init kw) package))).
Proof.
  intros Heq.
  assert (Hu : upload_prefix (init kw) = None) by now apply init_same_prefix.
  assert (Ha : forall package, area_prefix (init kw) package = kw_bucket_prefix kw).
  { intros package. unfold area_prefix. rewrite Hu. reflexivity. }
  split; [exact Hu|]. split; [exact Ha|].
  intros package pre Hn Hb.
  rewrite (get_path_fresh _ _ pre Hn); [reflexivity|]. now rewrite Ha.
Qed.

Lemma same_prefix_no_upload_area_witness :
  kw_upload_prefix kw_same = kw_bucket_prefix kw_same
  /\ upload_prefix (init kw_same) = None
  /\ area_prefix (init kw_same) sdist_upload = Some "pkgs/".
Proof.
  split; [reflexivity|].
  destruct (same_prefix_no_upload_area kw_same eq_refl) as [Hu [Ha _]].
  split; [exact Hu | exact (Ha sdist_upload)].
Defined.

(** C10.  Once a key is memoized in a package's [data], [get_path]
    through any storage instance returns it and leaves the package as it
    is; the configuration of the instance plays no part. *)
Theorem memoized_path_any_instance package v :
  data package !! "path" = Some v ->
  forall self, get_path self package = (inr v, package).
Proof. intros Hv self. now apply get_path_memo. Qed.

Lemma memoized_path_any_instance_witness :
  data sdist_memoized !! "path" = Some (PyStr "legacy/foo-1.2.tar.gz")
  /\ get_path (init kw_split) sdist_memoized
     = (inr (PyStr "legacy/foo-1.2.tar.gz"), sdist_memoized)
  /\ get_path (init kw_bare) sdist_memoized
     = (inr (PyStr "legacy/foo-1.2.tar.gz"), sdist_memoized).
Proof.
  split; [reflexivity|].
  split; apply (memoized_path_any_instance sdist_memoized _ eq_refl).
Defined.

End KeyClaims.

(* ===================================================================== *)
(** * Properties of URL resolution and of the proxied stream *)
(* ===================================================================== *)

Section UrlClaims.

Implicit Types (self : ObjectStoreStorage) (package : Package).

(** What [configure] yields when the settings leave a key out. *)
Lemma configure_defaults `{SettingsLib} settings kw :
  configure settings = inr kw ->
  (settings !! "storage.expire_after" = None -> kw_expire_after kw = Some 86400)
  /\ (settings !! "storage.redirect_urls" = None -> kw_redirect_urls kw = Some true)
  /\ kw_bucket_prefix kw = Some (default "" (settings !! "storage.prefix"))
  /\ kw_upload_prefix kw = Some (default "" (settings !! "storage.upload_prefix")).
Proof.
  unfold configure. intros Hc.
  destruct (settings !! "storage.expire_after") as [s|] eqn:He.
  - destruct (int_of_text s) as [e|z]; [discriminate|].
    inversion Hc; subst; cbn. repeat split; try discriminate.
    intros ->. reflexivity.
  - inversion Hc; subst; cbn. repeat split.
    intros ->. reflexivity.
Qed.

(** Settings that give the same text for both prefixes, or neither, build a
    storage without an upload prefix. *)
Lemma configure_same_prefix `{SettingsLib} settings kw :
  configure settings = inr kw ->
  default "" (settings !! "storage.upload_prefix") = default "" (settings !! "storage.prefix") ->
  upload_prefix (init kw) = None.
Proof.
  intros Hc Heq. destruct (configure_defaults settings kw Hc) as (_ & _ & Hb & Hu).
  apply init_same_prefix. now rewrite Hb, Hu, Heq.
Qed.

Example configure_nothing_set :
  @configure plain_settings_lib ∅ = inr kw_default.
Proof. reflexivity. Qed.

(** C5 as worded fails in both directions: with redirect mode enabled
    (the default) the URL is the proxy-relative one, not the signed one;
    with redirect mode disabled it is the signed one. *)
Lemma get_url_redirect_mode_counterexample :
  (truthy_flag (redirect_urls (init kw_default)) = true
   /\ fst (@get_url proxy_storage (signed_backend test_signer) (init kw_default) sdist_upload)
      = inr "api/package/foo/foo-1.2.tar.gz"
   /\ fst (@_generate_url (signed_backend test_signer) (init kw_default) sdist_upload)
      = inr "https://bucket.example/da1f/foo/foo-1.2.tar.gz?Expires=86400")
  /\ (truthy_flag (redirect_urls (init kw_bare)) = false
      /\ fst (@get_url proxy_storage (signed_backend test_signer) (init kw_bare) sdist_upload)
         = inr "https://bucket.example/packagesfoo/foo-1.2.tar.gz?Expires=86400"
      /\ proxy_url sdist_upload = "api/package/foo/foo-1.2.tar.gz").
Proof. vm_compute. repeat split; reflexivity. Qed.

(** C5 (amended).  With redirect mode enabled the URL resolver returns
    the stable proxy-relative URL and leaves the package alone; with
    redirect mode disabled it returns the signed-URL generator's result
    for the package's storage key and the configured expiry, or raises
    what key resolution raises.  Settings that leave the expiry out give
    86400 seconds, and settings that leave the redirect mode out enable
    it. *)
Theorem get_url_by_redirect_mode `{SettingsLib} signer self package :
  (truthy_flag (redirect_urls self) = true ->
     @get_url proxy_storage (signed_backend signer) self package
     = (inr (proxy_url package), package))
  /\ (truthy_flag (redirect_urls self) = false ->
       @get_url proxy_storage (signed_backend signer) self package
       = match get_path self package with
         | (inr key, package') =>
             (inr (signer key (expire_after self) (public_url self)), package')
         | (inl e, package') => (inl e, package')
         end)
  /\ (forall settings kw, configure settings = inr kw ->
        (settings !! "storage.expire_after" = None ->
           expire_after (init kw) = Some 86400)
        /\ (settings !! "storage.redirect_urls" = None ->
             truthy_flag (redirect_urls (init kw)) = true)).
Proof.
  split; [|split].
  - intros Hr. unfold get_url. rewrite Hr. reflexivity.
  - intros Hr. unfold get_url. rewrite Hr. cbn [_generate_url signed_backend].
    unfold bind, ret. destruct (get_path self package) as [[e|key] p']; reflexivity.
  - intros settings kw Hc.
    destruct (configure_defaults settings kw Hc) as [He [Hr _]].
    split; intros Hn; cbn [init expire_after redirect_urls].
    + exact (He Hn).
    + rewrite (Hr Hn). reflexivity.
Qed.

Lemma get_url_by_redirect_mode_witness :
  truthy_flag (redirect_urls (init kw_default)) = true
  /\ @get_url proxy_storage (signed_backend test_signer) (init kw_default) sdist_upload
     = (inr (proxy_url sdist_upload), sdist_upload).
Proof.
  split; [reflexivity|].
  exact (proj1 (@get_url_by_redirect_mode plain_settings_lib test_signer
                  (init kw_default) sdist_upload) eq_refl).
Defined.

(** The paths through [with self.open(package) as f: body(f)]. *)
Lemma with_open_paths `{Backend} {A} (net : Network) self package
    (body : list Md5.byte -> res A) (log : list event) :
  with_open net self package body log =
    match _generate_url self package with
    | (inl e, package') => (inl e, package', log)
    | (inr url, package') =>
        match net url with
        | inl e => (inl e, package', log)
        | inr handle =>
            let h := length log in
            match h_read handle with
            | inl e =>
                (inl (default e (h_close handle)), package',
                 log ++ [EvOpen h url; EvRead h; EvClose h])
            | inr bytes =>
                (match h_close handle with Some e => inl e | None => body bytes end,
                 package',
                 log ++ [EvOpen h url; EvRead h; EvYield h bytes; EvClose h])
            end
        end
    end.
Proof.
  unfold with_open, open_enter, open_exit.
  destruct (_generate_url self package) as [[e|url] p']; [reflexivity|].
  destruct (net url) as [e|handle]; [reflexivity|].
  destruct (h_read handle) as [e|bytes]; cbn zeta.
  - rewrite <- app_assoc. reflexivity.
  - rewrite <- !app_assoc. cbn [app].
    destruct (h_close handle) as [e|]; [reflexivity|].
    destruct (body bytes); reflexivity.
Qed.

Lemma open_handles_scoped h url mid :
  (forall e, e ∈ mid -> exists bytes, e = EvRead h \/ e = EvYield h bytes) ->
  open_handles (EvOpen h url :: mid ++ [EvClose h]) [] = [].
Proof.
  intros Hmid. cbn [open_handles].
  assert (Hgo : open_handles (mid ++ [EvClose h]) [h] = []).
  { induction mid as [|e mid IH].
    - cbn. rewrite decide_False; [reflexivity|]. intros Hne. now apply Hne.
    - destruct (Hmid e (list_elem_of_here _ _)) as [bytes [-> | ->]]; cbn [app open_handles];
        apply IH; intros e' He'; apply Hmid; now apply list_elem_of_further. }
  exact Hgo.
Qed.

(** C9.  The events that [open] adds to the log are none when no handle
    was acquired, and otherwise begin with the acquisition of the handle
    through the generated URL and end with its close, on every path:
    whether [read] raised, the consumer raised or all went well; no
    handle stays open.  When the read succeeds the consumer is given the
    bytes read, and its outcome is the outcome of the block unless the
    close raises. *)
Theorem open_closes_on_every_path `{Backend} {A} (net : Network) self package
    (body : list Md5.byte -> res A) (log : list event) :
  let run := with_open net self package body log in
  exists delta,
    snd run = log ++ delta
    /\ open_handles delta [] = []
    /\ (forall h url, EvOpen h url ∈ delta -> last delta = Some (EvClose h))
    /\ (forall url package' handle,
          _generate_url self package = (inr url, package') ->
          net url = inr handle ->
          EvOpen (length log) url ∈ delta
          /\ (forall bytes, h_read handle = inr bytes ->
                EvYield (length log) bytes ∈ delta
                /\ fst (fst run)
                   = match h_close handle with Some e => inl e | None => body bytes end)
          /\ (forall e, h_read handle = inl e ->
                fst (fst run) = inl (default e (h_close handle))))
    /\ (delta = [] ->
          exists e, fst (fst run) = inl e).
Proof.
  intros run. subst run. rewrite with_open_paths.
  destruct (_generate_url self package) as [[e|url] p'] eqn:Hg.
  { exists []. cbn [fst snd]. rewrite app_nil_r.
    split; [reflexivity|]. split; [reflexivity|]. split; [|split].
    - intros h url Hin. inversion Hin.
    - intros url p'' handle Hg'. discriminate.
    - eauto. }
  destruct (net url) as [e|handle] eqn:Hn.
  { exists []. cbn [fst snd]. rewrite app_nil_r.
    split; [reflexivity|]. split; [reflexivity|]. split; [|split].
    - intros h url' Hin. inversion Hin.
    - intros url' p'' handle Hg' Hn'. inversion Hg'; subst.
      rewrite Hn in Hn'. discriminate.
    - eauto. }
  destruct (h_read handle) as [e|bytes] eqn:Hr; cbn zeta.
  - exists [EvOpen (length log) url; EvRead (length log); EvClose (length log)].
    cbn [fst snd]. split; [reflexivity|]. split.
    { apply (open_handles_scoped _ _ [EvRead (length log)]).
      intros e' He'. exists []. left. now apply list_elem_of_singleton in He'. }
    split.
    { intros h url' Hin. apply elem_of_cons in Hin as [Heq|Hin].
      - inversion Heq; subst. reflexivity.
      - repeat (apply elem_of_cons in Hin as [Heq|Hin]; [discriminate|]).
        inversion Hin. }
    split.
    { intros url' p'' handle' Hg' Hn'. inversion Hg'; subst.
      rewrite Hn in Hn'. inversion Hn'; subst.
      split; [apply list_elem_of_here|]. split.
      - intros bytes Hb. rewrite Hr in Hb. discriminate.
      - intros e' He'. rewrite Hr in He'. inversion He'; subst. reflexivity. }
    intros Hd. discriminate.
  - exists [EvOpen (length log) url; EvRead (length log);
            EvYield (length log) bytes; EvClose (length log)].
    cbn [fst snd]. split; [reflexivity|]. split.
    { apply (open_handles_scoped _ _ [EvRead (length log); EvYield (length log) bytes]).
      intros e' He'. exists bytes.
      apply elem_of_cons in He' as [->|He']; [now left|].
      apply list_elem_of_singleton in He' as ->. now right. }
    split.
    { intros h url' Hin. apply elem_of_cons in Hin as [Heq|Hin].
      - inversion Heq; subst. reflexivity.
      - repeat (apply elem_of_cons in Hin as [Heq|Hin]; [discriminate|]).
        inversion Hin. }
    split.
    { intros url' p'' handle' Hg' Hn'. inversion Hg'; subst.
      rewrite Hn in Hn'. inversion Hn'; subst.
      split; [apply list_elem_of_here|]. split.
      - intros bytes' Hb. rewrite Hr in Hb. inversion Hb; subst.
        split; [|reflexivity].
        do 2 apply list_elem_of_further. apply list_elem_of_here.
      - intros e' He'. rewrite Hr in He'. discriminate. }
    intros Hd. discriminate.
Qed.

Lemma open_closes_on_every_path_witness :
  exists delta,
    snd (@with_open (signed_backend test_signer) unit net_abc (init kw_default)
           sdist_upload failing_consumer []) = [] ++ delta
    /\ open_handles delta [] = []
    /\ EvOpen 0 "https://bucket.example/da1f/foo/foo-1.2.tar.gz?Expires=86400" ∈ delta.
Proof.
  destruct (@open_closes_on_every_path (signed_backend test_signer) unit net_abc
              (init kw_default) sdist_upload failing_consumer [])
    as [delta [Hlog [Hbal [_ [Hacq _]]]]].
  exists delta. split; [exact Hlog|]. split; [exact Hbal|].
  exact (proj1 (Hacq "https://bucket.example/da1f/foo/foo-1.2.tar.gz?Expires=86400"
                     (set_data "path" (PyStr "da1f/foo/foo-1.2.tar.gz") sdist_upload)
                     (mkHandle (inr [97; 98; 99]) None) eq_refl eq_refl)).
Defined.

End UrlClaims.

Example with_open_consumer_raises :
  @with_open (signed_backend test_signer) unit net_abc (init kw_default)
             sdist_upload failing_consumer []
  = (inl (RuntimeError "consumer"),
     set_data "path" (PyStr "da1f/foo/foo-1.2.tar.gz") sdist_upload,
     [EvOpen 0 "https://bucket.example/da1f/foo/foo-1.2.tar.gz?Expires=86400";
      EvRead 0; EvYield 0 [97; 98; 99]; EvClose 0]).
Proof. vm_compute. reflexivity. Qed.

Example with_open_read_raises :
  @with_open (signed_backend test_signer) (list Md5.byte) net_broken (init kw_default)
             sdist_upload (fun bytes => inr bytes) []
  = (inl (URLError "reset"),
     set_data "path" (PyStr "da1f/foo/foo-1.2.tar.gz") sdist_upload,
     [EvOpen 0 "https://bucket.example/da1f/foo/foo-1.2.tar.gz?Expires=86400";
      EvRead 0; EvClose 0]).
Proof. vm_compute. reflexivity. Qed.

Example with_open_abstract_backend :
  @with_open abstract_backend (list Md5.byte) net_abc (init kw_default)
             sdist_upload (fun bytes => inr bytes) []
  = (inl NotImplementedError, sdist_upload, []).
Proof. reflexivity. Qed.

(* ===================================================================== *)
(** * Properties of the listing and download views *)
(* ===================================================================== *)

Module ViewClaims.
Import Views.

(** The modelled listing view passes every scenario of
    [tests/test_simple.py] translated above. *)
Lemma simple_tests_pass : simple_tests = true.
Proof. vm_compute. reflexivity. Qed.

(** C1 as worded fails: [TestCacheAlwaysShow.test_no_package_read_user]
    and [test_no_package_no_read_user] expect a redirect for a known
    caller without the cache-update permission when no package is stored
    and upstream is always shown. *)
Lemma listing_cache_always_show_counterexample :
  let req := get_request FallbackCache true false "r" (Some "foo") in
  lr_fallback req = FallbackCache
  /\ lr_local req = ∅
  /\ lr_is_authenticated req = true
  /\ lr_can_update_cache req = false
  /\ package_versions test_project req = Redirect "https://pypi.org/pypi/mypkg/"
  /\ package_versions test_project req <> NotFound
  /\ In (false, "r", Some "foo", should_redirect) TestCacheAlwaysShow.
Proof.
  cbv zeta. repeat split; try (vm_compute; reflexivity).
  - vm_compute. discriminate.
  - right; right; right; left. reflexivity.
Qed.

(** C1 (amended).  On a listing request with fallback mode [cache] and no
    locally stored package of the project, a known caller without the
    cache-update permission is answered not-found when upstream is not
    always shown, and redirected to the upstream project page when it
    is; the read permission makes no difference. *)
Theorem listing_cache_without_update_permission project req :
  lr_fallback req = FallbackCache ->
  lr_local req = ∅ ->
  lr_is_authenticated req = true ->
  lr_can_update_cache req = false ->
  package_versions project req =
    if lr_always_show_upstream req
    then Redirect (lr_fallback_url req +:+ project +:+ "/")
    else NotFound.
Proof.
  intros Hf Hl Ha Hc. unfold package_versions, has_local, deny, redirect_upstream.
  rewrite Hf, Ha, Hc. rewrite bool_decide_eq_true_2 by exact Hl.
  destruct (lr_always_show_upstream req), (lr_can_read req); reflexivity.
Qed.

Lemma listing_cache_without_update_permission_witness :
  package_versions test_project (get_request FallbackCache false false "r" (Some "foo"))
  = NotFound.
Proof.
  apply (listing_cache_without_update_permission test_project
           (get_request FallbackCache false false "r" (Some "foo")));
    reflexivity.
Defined.

(** C3.  A download of a file without a local record, under fallback
    mode [cache], by a caller with the cache-update permission, when
    upstream reports a release of that file name whose bytes can be
    fetched: the response carries the fetched bytes as its body and
    [Cache-Control: public, max-age=<policy>]; exactly one package record
    is added, under the requested file name and with origin [cache]; and
    the only storage operation issued is the write of those bytes. *)
Theorem download_cache_miss project filename req db d bytes :
  db_packages db !! filename = None ->
  dr_fallback req = FallbackCache ->
  dr_can_update_cache req = true ->
  find_release filename (dr_releases req project) = Some d ->
  dr_fetch req (d_url d) = inr bytes ->
  let pkg := cached_package filename d in
  let out := download_package project filename req db in
  fst out = DlBody {[ "Cache-Control" :=
                        "public, max-age=" +:+ pretty (dr_package_max_age req) ]} bytes
  /\ db_packages (snd out) = <[ filename := pkg ]> (db_packages db)
  /\ lp_origin pkg = OriginCache
  /\ size (db_packages (snd out)) = S (size (db_packages db))
  /\ (forall f, f <> filename -> db_packages (snd out) !! f = db_packages db !! f)
  /\ db_ops (snd out) = db_ops db ++ [StorePut (dr_resolve req pkg) bytes].
Proof.
  intros Hn Hf Hc Hr Hb pkg out. subst out.
  unfold download_package, fetch_and_cache.
  rewrite Hn, Hf, Hc, Hr. cbn [negb]. rewrite Hb. cbn [fst snd db_packages db_ops].
  split; [reflexivity|]. split; [reflexivity|]. split; [reflexivity|].
  split; [now apply map_size_insert_None|].
  split; [|reflexivity].
  intros f Hne. now apply lookup_insert_ne.
Qed.

Lemma download_cache_miss_witness :
  fst (download_package "mypkg" "package.tar.gz"
         (api_request FallbackCache true 30 [test_dist] [97; 98; 99]) empty_db)
  = DlBody {[ "Cache-Control" := "public, max-age=30" ]} [97; 98; 99].
Proof.
  exact (proj1 (download_cache_miss "mypkg" "package.tar.gz"
                  (api_request FallbackCache true 30 [test_dist] [97; 98; 99])
                  empty_db test_dist [97; 98; 99]
                  eq_refl eq_refl eq_refl eq_refl eq_refl)).
Defined.

(** C4.  A download of a file without a local record, under fallback
    mode [cache], by a caller without the cache-update permission, is
    answered forbidden, and the local state is left as it was. *)
Theorem download_cache_miss_forbidden project filename req db :
  db_packages db !! filename = None ->
  dr_fallback req = FallbackCache ->
  dr_can_update_cache req = false ->
  download_package project filename req db = (DlForbidden, db).
Proof.
  intros Hn Hf Hc. unfold download_package. now rewrite Hn, Hf, Hc.
Qed.

Lemma download_cache_miss_forbidden_witness :
  download_package "mypkg" "package.tar.gz"
    (api_request FallbackCache false 0 [test_dist] [102; 100; 115]) empty_db
  = (DlForbidden, empty_db).
Proof.
  apply (download_cache_miss_forbidden "mypkg" "package.tar.gz"
           (api_request FallbackCache false 0 [test_dist] [102; 100; 115]) empty_db);
    reflexivity.
Defined.

(** The download scenarios of [tests/test_api.py] on the model. *)
Example test_download_fallback_no_cache :
  fst (download_package "mypkg" "package.tar.gz"
         (api_request FallbackNone true 0 [test_dist] []) empty_db) = DlNotFound.
Proof. reflexivity. Qed.

Example test_download_fallback_cache_missing :
  fst (download_package "mypkg" "package.tar.gz"
         (api_request FallbackCache true 0 [] []) empty_db) = DlNotFound.
Proof. reflexivity. Qed.

Example test_download_fallback_cache :
  download_package "mypkg" "package.tar.gz"
    (api_request FallbackCache true 0 [test_dist] [102; 100; 115]) empty_db
  = (DlBody {[ "Cache-Control" := "public, max-age=0" ]} [102; 100; 115],
     mkDb {[ "package.tar.gz" :=
               mkLocalPackage "mypkg" "1.1" "package.tar.gz" None None OriginCache ]}
          {[ "mypkg/package.tar.gz" := [102; 100; 115] ]}
          [StorePut "mypkg/package.tar.gz" [102; 100; 115]]).
Proof. vm_compute. reflexivity. Qed.

End ViewClaims.

(* ===================================================================== *)
(** * Checks of the digest against known values *)
(* ===================================================================== *)

Example md5_empty :
  hexlify (Md5.digest (encode_utf8 "")) = "d41d8cd98f00b204e9800998ecf8427e".
Proof. vm_compute. reflexivity. Qed.

Example md5_abc :
  hexlify (Md5.digest (encode_utf8 "abc")) = "900150983cd24fb0d6963f7d28e17f72".
Proof. vm_compute. reflexivity. Qed.

Example md5_two_blocks :
  hexlify (Md5.digest (encode_utf8
    "aaaaaaaaaaaaaaaaaaaaaaaaaaaaaaaaaaaaaaaaaaaaaaaaaaaaaaaaaaaaaaaaaaaaaa"))
  = "0f5c6c4e740bfcc08c3c26ccb2673d46".
Proof. vm_compute. reflexivity. Qed.

Example md5_sdist_name :
  hexlify (Md5.digest (encode_utf8 "foo-1.2.tar.gz")) = "da1f774a3d2a3d7fb204554b7c275852".
Proof. vm_compute. reflexivity. Qed.

(* ===================================================================== *)
(** * Further properties of key resolution *)
(* ===================================================================== *)

Section KeyFurther.

Implicit Types (self : ObjectStoreStorage) (package : Package).

Lemma append_cancel pre a b : pre +:+ a = pre +:+ b -> a = b.
Proof.
  induction pre as [|c pre IH]; cbn; intros Heq; [exact Heq|].
  injection Heq as Heq. now apply IH.
Qed.

(** [<project>/<filename>] determines both parts when the project name
    holds no separator. *)
Lemma project_path_inj n1 f1 n2 f2 :
  contains_slash n1 = false -> contains_slash n2 = false ->
  n1 +:+ "/" +:+ f1 = n2 +:+ "/" +:+ f2 ->
  n1 = n2 /\ f1 = f2.
Proof.
  revert n2. induction n1 as [|c1 n1 IH]; intros [|c2 n2]; simpl; intros H1 H2 Heq.
  - injection Heq as Heq. now split.
  - injection Heq as Hc _. subst c2. simpl in H2. discriminate.
  - injection Heq as Hc _. subst c1. simpl in H1. discriminate.
  - injection Heq as Hc Heq. subst c2.
    apply orb_false_iff in H1 as [_ H1]. apply orb_false_iff in H2 as [_ H2].
    destruct (IH n2 H1 H2 Heq) as [-> ->]. now split.
Qed.

Lemma hex_digit_lower d : 0 <= d < 16 -> is_lower_hex (hex_digit d) = true.
Proof.
  intros Hd.
  assert (Hn : exists n, (n < 16)%nat /\ d = Z.of_nat n) by (exists (Z.to_nat d); lia).
  destruct Hn as (n & Hn & ->).
  do 16 (destruct n as [|n]; [reflexivity|]). lia.
Qed.

Lemma low_nibble_range x : 0 <= Z.land x 15 < 16.
Proof. change 15 with (Z.ones 4). rewrite Z.land_ones by lia. apply Z.mod_pos_bound. lia. Qed.

Lemma high_nibble_range x : 0 <= Z.shiftr (Z.land x 255) 4 < 16.
Proof.
  change 255 with (Z.ones 8). rewrite Z.land_ones by lia.
  rewrite Z.shiftr_div_pow2 by lia.
  assert (H : 0 <= x mod 2 ^ 8 < 2 ^ 8) by (apply Z.mod_pos_bound; lia).
  change (2 ^ 8) with 256 in *. change (2 ^ 4) with 16.
  split; [apply Z.div_pos; lia | apply Z.div_lt_upper_bound; lia].
Qed.

(** The hash prefix of any file name is four characters of [0-9a-f]. *)
Lemma hash_prefix_shape f :
  exists a b c d,
    hash_prefix f = String a (String b (String c (String d "")))
    /\ is_lower_hex a = true /\ is_lower_hex b = true
    /\ is_lower_hex c = true /\ is_lower_hex d = true.
Proof.
  unfold hash_prefix, Md5.digest. cbv zeta.
  set (r := Md5.blocks _ _ _).
  cbn [Md5.le_bytes app hexlify str_take String.substring].
  do 4 eexists. split; [reflexivity|].
  repeat split; apply hex_digit_lower;
    first [apply low_nibble_range | apply high_nibble_range].
Qed.

(** [calculate_path] determines the project and the file name when the
    project name holds no separator. *)
Lemma calculate_path_inj self p1 p2 :
  contains_slash (name p1) = false -> contains_slash (name p2) = false ->
  calculate_path self p1 = calculate_path self p2 ->
  name p1 = name p2 /\ filename p1 = filename p2.
Proof.
  intros H1 H2. unfold calculate_path.
  destruct (truthy_flag (prepend_hash self)).
  - fold (hash_prefix (filename p1)). fold (hash_prefix (filename p2)).
    destruct (hash_prefix_shape (filename p1)) as (a1 & b1 & c1 & d1 & -> & _).
    destruct (hash_prefix_shape (filename p2)) as (a2 & b2 & c2 & d2 & -> & _).
    cbn. intros Heq. injection Heq as _ _ _ _ Heq.
    now apply project_path_inj.
  - now apply project_path_inj.
Qed.

(** X1.  [get_path] raises exactly when the package has no memoized key,
    the storage has no bucket prefix, and the upload prefix does not apply
    (it is unset or empty, or the origin is not [upload]); the exception is
    [TypeError] and the package is left as it was. *)
Theorem get_path_raises_iff self package e :
  fst (get_path self package) = inl e
  <-> (data package !! "path" = None
       /\ bucket_prefix self = None
       /\ truthy_str (upload_prefix self) && bool_decide (origin package = "upload") = false
       /\ e = TypeError
       /\ snd (get_path self package) = package).
Proof.
  split.
  - intros Hr. destruct (data package !! "path") as [v|] eqn:Hv.
    { rewrite (get_path_memo _ _ _ Hv) in Hr. discriminate. }
    destruct (area_prefix self package) as [pre|] eqn:Hp.
    { rewrite (get_path_fresh _ _ _ Hv Hp) in Hr. discriminate. }
    rewrite (get_path_fresh_none _ _ Hv Hp) in Hr |- *. cbn in Hr. injection Hr as <-.
    unfold area_prefix in Hp.
    destruct (truthy_str (upload_prefix self) && bool_decide (origin package = "upload")) eqn:Hc.
    + apply andb_true_iff in Hc as [Hc _].
      destruct (upload_prefix self); [discriminate Hp | discriminate Hc].
    + repeat split. exact Hp.
  - intros (Hv & Hb & Hc & -> & _).
    rewrite (get_path_fresh_none _ _ Hv); [reflexivity|].
    unfold area_prefix. now rewrite Hc.
Qed.

(** X2.  [get_path] changes nothing of a package but the ["path"] entry of
    its [data], and it never replaces a ["path"] entry that is there. *)
Theorem get_path_frame self package :
  let package' := snd (get_path self package) in
  name package' = name package
  /\ version package' = version package
  /\ filename package' = filename package
  /\ origin package' = origin package
  /\ (forall k, k <> "path" -> data package' !! k = data package !! k)
  /\ (forall v, data package !! "path" = Some v -> package' = package).
Proof.
  cbv zeta. destruct (data package !! "path") as [v|] eqn:Hv.
  { rewrite (get_path_memo _ _ _ Hv). cbn [snd]. repeat split; congruence. }
  destruct (area_prefix self package) as [pre|] eqn:Hp.
  - rewrite (get_path_fresh _ _ _ Hv Hp). cbn [snd set_data name version filename origin data].
    repeat split; try discriminate.
    intros k Hk. now apply lookup_insert_ne.
  - rewrite (get_path_fresh_none _ _ Hv Hp). cbn [snd]. repeat split; discriminate.
Qed.

(** X7.  After construction, two packages are stored under the same area
    prefix exactly when the storage has no usable upload prefix or the
    packages agree on being uploads: with an upload prefix in effect,
    uploads and other packages never share their prefix. *)
Theorem area_prefix_shared_iff kw p1 p2 :
  area_prefix (init kw) p1 = area_prefix (init kw) p2
  <-> (truthy_str (upload_prefix (init kw)) = false
       \/ (origin p1 = "upload" <-> origin p2 = "upload")).
Proof.
  unfold area_prefix.
  destruct (truthy_str (upload_prefix (init kw))) eqn:Ht; cbn [andb].
  - assert (Hne : upload_prefix (init kw) <> bucket_prefix (init kw)).
    { unfold init in *; cbn in *.
      destruct (bool_decide (kw_upload_prefix kw <> kw_bucket_prefix kw)) eqn:Hd.
      - now apply bool_decide_eq_true_1 in Hd.
      - discriminate Ht. }
    destruct (bool_decide (origin p1 = "upload")) eqn:H1;
      destruct (bool_decide (origin p2 = "upload")) eqn:H2;
      [apply bool_decide_eq_true_1 in H1 | apply bool_decide_eq_true_1 in H1
      |apply bool_decide_eq_false_1 in H1 | apply bool_decide_eq_false_1 in H1];
      [apply bool_decide_eq_true_1 in H2 | apply bool_decide_eq_false_1 in H2
      |apply bool_decide_eq_true_1 in H2 | apply bool_decide_eq_false_1 in H2];
      cbn [andb]; split; intros H.
    + right. tauto.
    + reflexivity.
    + exfalso. now apply Hne.
    + destruct H as [H|H]; [discriminate|tauto].
    + exfalso. now apply Hne.
    + destruct H as [H|H]; [discriminate|tauto].
    + right. tauto.
    + reflexivity.
  - split; [intros _; now left | reflexivity].
Qed.

(** X6.  Within one storage, two packages of the same origin whose project
    names hold no separator and that have no memoized key resolve to the
    same key only if they have the same project name and file name. *)
Theorem get_path_no_collision self p1 p2 k :
  contains_slash (name p1) = false -> contains_slash (name p2) = false ->
  origin p1 = origin p2 ->
  data p1 !! "path" = None -> data p2 !! "path" = None ->
  fst (get_path self p1) = inr k -> fst (get_path self p2) = inr k ->
  name p1 = name p2 /\ filename p1 = filename p2.
Proof.
  intros Hs1 Hs2 Ho Hn1 Hn2 Hk1 Hk2.
  assert (Ha : area_prefix self p1 = area_prefix self p2).
  { unfold area_prefix. now rewrite Ho. }
  destruct (area_prefix self p2) as [pre|] eqn:Hp.
  - rewrite (get_path_fresh _ _ _ Hn1 Ha) in Hk1. rewrite (get_path_fresh _ _ _ Hn2 Hp) in Hk2.
    cbn [fst] in *. rewrite <- Hk2 in Hk1. injection Hk1 as Hk1.
    apply append_cancel in Hk1. now apply (calculate_path_inj self).
  - rewrite (get_path_fresh_none _ _ Hn2 Hp) in Hk2. discriminate.
Qed.

Lemma get_path_no_collision_witness :
  name sdist_cached = name sdist_cached_annotated
  /\ filename sdist_cached = filename sdist_cached_annotated.
Proof.
  apply (get_path_no_collision (init kw_split) sdist_cached sdist_cached_annotated
           (PyStr "cache/da1f/foo/foo-1.2.tar.gz"));
    first [reflexivity | vm_compute; reflexivity].
Defined.

(** X5.  With hash-prefixing on, the path of every package is four
    characters of [0-9a-f], a separator, and [<project>/<filename>]; with
    hash-prefixing off it is [<project>/<filename>] alone. *)
Theorem calculate_path_shape self package :
  if truthy_flag (prepend_hash self) then
    exists a b c d,
      calculate_path self package
      = String a (String b (String c (String d
          ("/" +:+ name package +:+ "/" +:+ filename package))))
      /\ is_lower_hex a && is_lower_hex b && is_lower_hex c && is_lower_hex d = true
  else calculate_path self package = name package +:+ "/" +:+ filename package.
Proof.
  unfold calculate_path. destruct (truthy_flag (prepend_hash self)); [|reflexivity].
  fold (hash_prefix (filename package)).
  destruct (hash_prefix_shape (filename package)) as (a & b & c & d & -> & Ha & Hb & Hc & Hd).
  exists a, b, c, d. split; [reflexivity|]. now rewrite Ha, Hb, Hc, Hd.
Qed.

Lemma calculate_path_shape_witness :
  calculate_path (init kw_split) sdist_upload = "da1f/foo/foo-1.2.tar.gz"
  /\ exists a b c d,
       calculate_path (init kw_split) sdist_upload
       = String a (String b (String c (String d ("/" +:+ "foo" +:+ "/" +:+ "foo-1.2.tar.gz"))))
       /\ is_lower_hex a && is_lower_hex b && is_lower_hex c && is_lower_hex d = true.
Proof.
  split; [vm_compute; reflexivity|].
  exact (calculate_path_shape (init kw_split) sdist_upload).
Defined.

End KeyFurther.

(* ===================================================================== *)
(** * Further properties of configuration *)
(* ===================================================================== *)

Section ConfigureFurther.

Context `{SettingsLib}.

Implicit Types (settings : gmap string string) (package : Package).

(** What [configure] always yields: both prefixes and both flags are set. *)
Lemma configure_fields settings kw :
  configure settings = inr kw ->
  kw_bucket_prefix kw = Some (default "" (settings !! "storage.prefix"))
  /\ kw_upload_prefix kw = Some (default "" (settings !! "storage.upload_prefix"))
  /\ kw_prepend_hash kw = Some (asbool (settings !! "storage.prepend_hash") true)
  /\ kw_redirect_urls kw = Some (asbool (settings !! "storage.redirect_urls") true).
Proof.
  unfold configure. intros Hc.
  destruct (match settings !! "storage.expire_after" with
            | Some s => int_of_text s
            | None => inr (60 * 60 * 24)
            end) as [e|z]; [discriminate|].
  inversion Hc; subst; cbn. repeat split.
Qed.

(** The area prefix of a configured storage is always a text. *)
Lemma configured_area_prefix settings kw package :
  configure settings = inr kw ->
  exists pre, area_prefix (init kw) package = Some pre.
Proof.
  intros Hc. destruct (configure_fields settings kw Hc) as (Hb & Hu & _).
  rewrite area_prefix_init, Hb, Hu.
  match goal with |- context [if ?c then _ else _] => destruct c end; eauto.
Qed.


(** X3.  Key resolution through a storage built from settings that
    [configure] accepts never raises, for any package; without a memoized
    key the result is a text, and it is what the package then holds. *)
Theorem configured_get_path_returns settings kw package :
  configure settings = inr kw ->
  exists k,
    fst (get_path (init kw) package) = inr k
    /\ data (snd (get_path (init kw) package)) !! "path" = Some k
    /\ (data package !! "path" = None -> exists s, k = PyStr s).
Proof.
  intros Hc. destruct (data package !! "path") as [v|] eqn:Hv.
  - exists v. rewrite (get_path_memo _ _ _ Hv). cbn [fst snd].
    split; [reflexivity|]. split; [exact Hv | discriminate].
  - destruct (configured_area_prefix settings kw package Hc) as [pre Hp].
    rewrite (get_path_fresh _ _ _ Hv Hp). cbn [fst snd data set_data].
    eexists. split; [reflexivity|]. split; [apply lookup_insert_eq | eauto].
Qed.

(** X10.  Settings that name no prefix and leave hash-prefixing alone store
    every package, whatever its origin, under
    [<4-hex-prefix>/<project>/<filename>]. *)
Theorem default_settings_key settings kw package :
  configure settings = inr kw ->
  settings !! "storage.prefix" = None ->
  settings !! "storage.upload_prefix" = None ->
  settings !! "storage.prepend_hash" = None ->
  data package !! "path" = None ->
  fst (get_path (init kw) package)
  = inr (PyStr (hash_prefix (filename package) +:+ "/"
                +:+ name package +:+ "/" +:+ filename package)).
Proof.
  intros Hc Hp Hu Hh Hn.
  destruct (configure_fields settings kw Hc) as (Hb & Hup & Hph & _).
  rewrite Hp in Hb. rewrite Hu in Hup. rewrite Hh in Hph. cbn in Hb, Hup, Hph.
  assert (Ha : area_prefix (init kw) package = Some "").
  { rewrite area_prefix_init, Hb, Hup. cbn. now rewrite andb_false_r. }
  rewrite (get_path_fresh _ _ _ Hn Ha). cbn [fst].
  unfold calculate_path, hash_prefix. cbn [prepend_hash init]. rewrite Hph. reflexivity.
Qed.

End ConfigureFurther.

Example configure_two_areas :
  @configure plain_settings_lib settings_two_areas = inr kw_two_areas.
Proof. vm_compute. reflexivity. Qed.

Lemma configured_get_path_returns_witness :
  data sdist_upload !! "path" = None
  /\ exists k,
       fst (get_path (init kw_two_areas) sdist_upload) = inr k
       /\ data (snd (get_path (init kw_two_areas) sdist_upload)) !! "path" = Some k
       /\ exists s, k = PyStr s.
Proof.
  split; [reflexivity|].
  destruct (@configured_get_path_returns plain_settings_lib settings_two_areas
              kw_two_areas sdist_upload configure_two_areas) as (k & Hk & Hst & Hs).
  exists k. split; [exact Hk|]. split; [exact Hst|]. apply Hs. reflexivity.
Defined.

Lemma default_settings_key_witness :
  fst (get_path (init kw_default) sdist_cached) = inr (PyStr "da1f/foo/foo-1.2.tar.gz").
Proof.
  rewrite (@default_settings_key plain_settings_lib ∅ kw_default sdist_cached
             configure_nothing_set (lookup_empty _) (lookup_empty _) (lookup_empty _)
             (lookup_empty _)).
  vm_compute. reflexivity.
Defined.


(* ===================================================================== *)
(** * Further properties of the proxied stream *)
(* ===================================================================== *)

Section StreamFurther.

Context `{Backend}.

Implicit Types (self : ObjectStoreStorage) (package : Package) (log : list event).

Lemma open_handles_app l1 l2 acc :
  open_handles (l1 ++ l2) acc = open_handles l2 (open_handles l1 acc).
Proof.
  revert acc. induction l1 as [|e l1 IH]; intros acc; [reflexivity|].
  destruct e; cbn [app open_handles]; apply IH.
Qed.

(** A handle that is open was acquired in the log or was open before. *)
Lemma open_handles_origin l acc h :
  h ∈ open_handles l acc -> h ∈ acc \/ exists url, EvOpen h url ∈ l.
Proof.
  revert acc. induction l as [|e l IH]; intros acc Hin; [now left|].
  destruct e as [h' url| | |h']; cbn [open_handles] in Hin; apply IH in Hin as [Hin|[url' Hin]].
  - apply elem_of_cons in Hin as [->|Hin]; [right; eexists; apply list_elem_of_here | now left].
  - right. exists url'. now apply list_elem_of_further.
  - now left.
  - right. exists url'. now apply list_elem_of_further.
  - now left.
  - right. exists url'. now apply list_elem_of_further.
  - left. apply list_elem_of_filter in Hin. tauto.
  - right. exists url'. now apply list_elem_of_further.
Qed.

Lemma filter_other_id (h : nat) (acc : list nat) :
  h ∉ acc -> filter (fun h' => h' <> h) acc = acc.
Proof.
  induction acc as [|x acc IH]; intros Hn; [reflexivity|].
  rewrite filter_cons. apply not_elem_of_cons in Hn as [Hx Hn].
  rewrite decide_True by congruence. now rewrite IH.
Qed.

(** Acquiring a handle, reading and yielding on it, and closing it leaves
    the other open handles as they were. *)
Lemma open_handles_bracket h url mid acc :
  (forall e, e ∈ mid -> exists bytes, e = EvRead h \/ e = EvYield h bytes) ->
  h ∉ acc ->
  open_handles (EvOpen h url :: mid ++ [EvClose h]) acc = acc.
Proof.
  intros Hmid Hn. cbn [open_handles].
  assert (Hgo : open_handles (mid ++ [EvClose h]) (h :: acc) = acc).
  { induction mid as [|e mid IH].
    - cbn. rewrite decide_False by (intros Hne; now apply Hne).
      now apply filter_other_id.
    - destruct (Hmid e (list_elem_of_here _ _)) as [bytes [-> | ->]]; cbn [app open_handles];
        apply IH; intros e' He'; apply Hmid; now apply list_elem_of_further. }
  exact Hgo.
Qed.

(** X9.  On a log whose handles were all named by [open]'s scheme, a use
    of [open] in a [with] block keeps that scheme and leaves the set of
    open handles as it found it, on every path; so no sequence of uses
    leaks a handle. *)
Theorem with_open_keeps_open_handles {A} (net : Network) self package
    (body : list Md5.byte -> res A) log :
  handles_bounded log ->
  handles_bounded (snd (with_open net self package body log))
  /\ open_handles (snd (with_open net self package body log)) []
     = open_handles log [].
Proof.
  intros Hb. rewrite with_open_paths.
  destruct (_generate_url self package) as [[e|url] p']; [now split|].
  destruct (net url) as [e|handle]; [now split|].
  assert (Hfresh : length log ∉ open_handles log []).
  { intros Hin. apply open_handles_origin in Hin as [Hin|[url' Hin]]; [inversion Hin|].
    apply Hb in Hin. cbn in Hin. lia. }
  assert (Hext : forall delta,
            (forall e, e ∈ delta -> event_handle e = length log) -> delta <> [] ->
            handles_bounded (log ++ delta)).
  { intros delta Hd Hne e He. rewrite length_app.
    apply elem_of_app in He as [He|He].
    - apply Hb in He. lia.
    - rewrite (Hd e He). destruct delta; [congruence|]. cbn. lia. }
  cbv zeta. destruct (h_read handle) as [e|bytes]; cbn [snd].
  - split.
    + apply Hext; [|discriminate]. intros e' He'.
      repeat (apply elem_of_cons in He' as [->|He']; [reflexivity|]). inversion He'.
    + rewrite open_handles_app.
      apply (open_handles_bracket _ _ [EvRead (length log)]); [|exact Hfresh].
      intros e' He'. exists []. left. now apply list_elem_of_singleton in He'.
  - split.
    + apply Hext; [|discriminate]. intros e' He'.
      repeat (apply elem_of_cons in He' as [->|He']; [reflexivity|]). inversion He'.
    + rewrite open_handles_app.
      apply (open_handles_bracket _ _ [EvRead (length log); EvYield (length log) bytes]);
        [|exact Hfresh].
      intros e' He'. exists bytes.
      apply elem_of_cons in He' as [->|He']; [now left|].
      apply list_elem_of_singleton in He' as ->. now right.
Qed.

End StreamFurther.

Lemma handles_bounded_log_with_leak : handles_bounded log_with_leak.
Proof.
  intros e He. repeat (apply elem_of_cons in He as [->|He]; [cbn; lia|]). inversion He.
Qed.

Lemma with_open_keeps_open_handles_witness :
  open_handles (snd (@with_open (signed_backend test_signer) unit net_abc (init kw_default)
                       sdist_upload failing_consumer log_with_leak)) []
  = [0%nat].
Proof.
  exact (proj2 (@with_open_keeps_open_handles (signed_backend test_signer) unit net_abc
                  (init kw_default) sdist_upload failing_consumer log_with_leak
                  handles_bounded_log_with_leak)).
Defined.
